(** * Verification of [services/geminiService.ts]

    The service exports two functions:
    - [fileToBase64], which reads a [File] through the browser's
      [FileReader.readAsDataURL] and keeps the second comma-separated field
      of the resulting data URL;
    - [editImageWithPrompt], which checks [process.env.API_KEY], issues one
      [generateContent] call and scans the response for inline image data.

    The browser and SDK primitives the service calls ([FileReader], base64,
    [String.prototype.split], [generateContent]) are modelled in the modules
    [Base64] and [JS]; the two exported functions are embedded in the module
    [GeminiService], each line following the TypeScript source. *)

From Stdlib Require Import NArith ZArith Lia.
From Stdlib Require Import Strings.Byte Strings.Ascii.
From stdpp Require Import base option list strings.

Local Open Scope N_scope.

(** * Base64 (RFC 4648, section 4), the payload encoding of a data URL *)

Module Base64.

(** The 64-character alphabet, indexed by sextet value. *)
Definition alphabet : list ascii :=
  String.list_ascii_of_string
    "ABCDEFGHIJKLMNOPQRSTUVWXYZabcdefghijklmnopqrstuvwxyz0123456789+/".

Definition pad : ascii := "="%char.

Definition char_of_sextet (n : N) : ascii :=
  nth (N.to_nat n) alphabet "A"%char.

Definition sextet_of_char (c : ascii) : option N :=
  let k := N_of_ascii c in
  if (65 <=? k) && (k <=? 90) then Some (k - 65)
  else if (97 <=? k) && (k <=? 122) then Some (k - 97 + 26)
  else if (48 <=? k) && (k <=? 57) then Some (k - 48 + 52)
  else if k =? 43 then Some 62
  else if k =? 47 then Some 63
  else None.

(** Regrouping of three octets into four sextets, and back. *)
Definition sextet1 (a : N) : N := a / 4.
Definition sextet2 (a b : N) : N := (a mod 4) * 16 + b / 16.
Definition sextet3 (b c : N) : N := (b mod 16) * 4 + c / 64.
Definition sextet4 (c : N) : N := c mod 64.

Definition octet1 (s1 s2 : N) : N := s1 * 4 + s2 / 16.
Definition octet2 (s2 s3 : N) : N := (s2 mod 16) * 16 + s3 / 4.
Definition octet3 (s3 s4 : N) : N := (s3 mod 4) * 64 + s4.

(** [encode] is what [btoa] and [readAsDataURL] compute on raw bytes:
    full groups of three bytes give four characters, a trailing group of
    one or two bytes is zero-filled and padded with [=]. *)
Fixpoint encode (bs : list byte) : string :=
  match bs with
  | [] => EmptyString
  | [a] =>
      let a := Byte.to_N a in
      String (char_of_sextet (sextet1 a))
        (String (char_of_sextet (sextet2 a 0))
           (String pad (String pad EmptyString)))
  | [a; b] =>
      let a := Byte.to_N a in
      let b := Byte.to_N b in
      String (char_of_sextet (sextet1 a))
        (String (char_of_sextet (sextet2 a b))
           (String (char_of_sextet (sextet3 b 0))
              (String pad EmptyString)))
  | a :: b :: c :: rest =>
      let a := Byte.to_N a in
      let b := Byte.to_N b in
      let c := Byte.to_N c in
      String (char_of_sextet (sextet1 a))
        (String (char_of_sextet (sextet2 a b))
           (String (char_of_sextet (sextet3 b c))
              (String (char_of_sextet (sextet4 c)) (encode rest))))
  end.

(** The decoder of the round-trip property: four characters at a time,
    padding accepted only in the last group. *)
Fixpoint decode (s : string) : option (list byte) :=
  match s with
  | EmptyString => Some []
  | String c1 (String c2 (String c3 (String c4 rest))) =>
      s1 ← sextet_of_char c1;
      s2 ← sextet_of_char c2;
      a ← Byte.of_N (octet1 s1 s2);
      if decide (c3 = pad) then
        if decide (c4 = pad ∧ rest = EmptyString) then Some [a] else None
      else
        s3 ← sextet_of_char c3;
        b ← Byte.of_N (octet2 s2 s3);
        if decide (c4 = pad) then
          if decide (rest = EmptyString) then Some [a; b] else None
        else
          s4 ← sextet_of_char c4;
          c ← Byte.of_N (octet3 s3 s4);
          tl ← decode rest;
          Some (a :: b :: c :: tl)
  | _ => None
  end.

End Base64.

(** * The JavaScript primitives the service relies on *)

Module JS.

(** [s.split(sep)] for a one-character separator: the fields between
    separators, in order; a string without separator is its only field. *)
Fixpoint split (sep : ascii) (s : string) : list string :=
  match s with
  | EmptyString => [EmptyString]
  | String c rest =>
      if decide (c = sep) then EmptyString :: split sep rest
      else
        match split sep rest with
        | field :: fields => String c field :: fields
        | [] => [String c EmptyString]
        end
  end.

(** [s.includes(c)] for a single character [c]. *)
Fixpoint includes (s : string) (c : ascii) : bool :=
  match s with
  | EmptyString => false
  | String c' rest => if decide (c' = c) then true else includes rest c
  end.

(** [t] occurs in [s] as a contiguous piece of text. *)
Definition contains (s t : string) : Prop :=
  ∃ before after, s = before +:+ t +:+ after.

(** Truthiness of a value of type [string | undefined]: [undefined] and
    the empty string are falsy. *)
Definition truthy (v : option string) : option string :=
  match v with
  | Some (String c s) => Some (String c s)
  | Some EmptyString | None => None
  end.

(** A thrown value: an [Error] object with its [message], or any other
    value, kept as the text [String(value)] gives. *)
Inductive Thrown : Type :=
| Error (message : string)
| NotAnError (text : string).

(** How an asynchronous operation settles. *)
Inductive Settled (E A : Type) : Type :=
| Resolved (value : A)
| Rejected (reason : E).
Global Arguments Resolved {E A} value.
Global Arguments Rejected {E A} reason.

(** ** Files and [FileReader] *)

(** A [File]: its [type] attribute and what reading its content gives,
    the bytes or the reader's error event. *)
Record File : Type := mkFile {
  file_type : string;
  file_read : Settled string (list byte)
}.

(** The state of a [FileReader] once the read has finished: [onload] fires
    with [reader.result] set, or [onerror] fires. *)
Inductive ReaderEvent : Type :=
| onload (result : string)
| onerror (error : string).

(** [reader.readAsDataURL(file)]: [data:<type>;base64,<payload>], with
    [application/octet-stream] for a file without type. *)
Definition readAsDataURL (file : File) : ReaderEvent :=
  match file_read file with
  | Resolved bytes =>
      let media :=
        match file_type file with
        | EmptyString => "application/octet-stream"
        | ty => ty
        end in
      onload ("data:" +:+ media +:+ ";base64," +:+ Base64.encode bytes)
  | Rejected error => onerror error
  end.

(** ** The state an [async] function runs in *)

Section Effects.
(** [Call] is the type of the requests sent over the network. *)
Context {Call : Type}.

Record World : Type := mkWorld {
  network : list Call;    (* outbound calls, oldest first *)
  console : list Thrown   (* values passed to [console.error] *)
}.

Definition Async (A : Type) : Type := World → Settled Thrown A * World.

Definition ret {A} (a : A) : Async A := λ w, (Resolved a, w).

Definition throw {A} (e : Thrown) : Async A := λ w, (Rejected e, w).

Definition bind {A B} (m : Async A) (k : A → Async B) : Async B :=
  λ w, match m w with
       | (Resolved a, w') => k a w'
       | (Rejected e, w') => (Rejected e, w')
       end.

(** [try { body } catch (error) { handler }] *)
Definition try_catch {A} (body : Async A) (handler : Thrown → Async A)
  : Async A :=
  λ w, match body w with
       | (Resolved a, w') => (Resolved a, w')
       | (Rejected e, w') => handler e w'
       end.

(** [await remote(call)]: the call goes out, then settles as the remote
    side decides. *)
Definition await_call {A} (remote : Call → Settled Thrown A) (call : Call)
  : Async A :=
  λ w, (remote call,
        {| network := network w ++ [call]; console := console w |}).

Definition console_error (e : Thrown) : Async unit :=
  λ w, (Resolved tt,
        {| network := network w; console := console w ++ [e] |}).

Definition start : World := {| network := []; console := [] |}.
End Effects.
Global Arguments World : clear implicits.
Global Arguments Async : clear implicits.

End JS.

Notation "x <- m ;; k" := (JS.bind m (λ x, k))
  (at level 100, m at next level, right associativity).
Notation "m ;;; k" := (JS.bind m (λ _, k))
  (at level 100, right associativity).

(** * The service *)

Module GeminiService.
Import JS.

(** ** The slice of [@google/genai] the service uses *)

Inductive Modality : Type := TEXT | IMAGE | AUDIO.

(** [Blob]: inline media bytes. Every field of the SDK's response types
    is optional; [None] stands for an absent field. *)
Record Blob : Type := mkBlob {
  data : option string;
  mimeType : option string
}.

Record Part : Type := mkPart {
  inlineData : option Blob;
  text : option string
}.

Record Content : Type := mkContent {
  parts : option (list Part)
}.

Record Candidate : Type := mkCandidate {
  content : option Content
}.

Record GenerateContentResponse : Type := mkResponse {
  candidates : option (list Candidate)
}.

Record GenerateContentConfig : Type := mkConfig {
  responseModalities : list Modality
}.

Record GenerateContentParameters : Type := mkParameters {
  model : string;
  contents : Content;
  config : GenerateContentConfig
}.

(** The process environment, and the remote service reached through a
    client built with [new GoogleGenAI({ apiKey })]. *)
Record Host : Type := mkHost {
  API_KEY : option string;
  generateContent :
    string → GenerateContentParameters →
    Settled Thrown GenerateContentResponse
}.

(** ** [fileToBase64] *)

Definition fileToBase64 (file : File) : Settled string (option string) :=
  match readAsDataURL file with
  | onload result => Resolved (split ","%char result !! 1%nat)
  | onerror error => Rejected error
  end.

(** ** [editImageWithPrompt] *)

Definition MissingCredentialError : Thrown :=
  Error "API_KEY environment variable is not set.".

Definition NoImageInResponseError : Thrown :=
  Error "No image data found in the API response. The model may have refused the request.".

(** [error instanceof Error ? error.message : String(error)] *)
Definition diagnostic (error : Thrown) : string :=
  match error with
  | Error message => message
  | NotAnError text => text
  end.

Definition GenerationFailedError (cause : Thrown) : Thrown :=
  Error ("Failed to generate image: " +:+ diagnostic cause).

(** The argument of the [generateContent] call. *)
Definition request (base64ImageData mimeType prompt : string)
  : GenerateContentParameters :=
  {| model := "gemini-2.5-flash-image";
     contents :=
       {| parts := Some
            [ {| inlineData :=
                   Some {| data := Some base64ImageData;
                           mimeType := Some mimeType |};
                 text := None |};
              {| inlineData := None; text := Some prompt |} ] |};
     config := {| responseModalities := [IMAGE] |} |}.

(** [response.candidates?.[0]?.content?.parts || []] *)
Definition response_parts (response : GenerateContentResponse) : list Part :=
  default [] (cs ← candidates response; c ← cs !! 0%nat;
              ct ← content c; parts ct).

(** The [for ... of] loop: [Some v] when an iteration executes
    [return v], [None] when the loop runs to its end. *)
Fixpoint scan_parts (ps : list Part) : option (option string) :=
  match ps with
  | [] => None
  | part :: rest =>
      match inlineData part with
      | Some blob => Some (data blob)
      | None => scan_parts rest
      end
  end.

Definition editImageWithPrompt (host : Host)
    (base64ImageData mimeType prompt : string)
  : Async GenerateContentParameters (option string) :=
  match truthy (API_KEY host) with
  | None => throw MissingCredentialError
  | Some apiKey =>
      let ai := generateContent host apiKey in
      try_catch
        (response <- await_call ai (request base64ImageData mimeType prompt) ;;
         match scan_parts (response_parts response) with
         | Some found => ret found
         | None => throw NoImageInResponseError
         end)
        (λ error,
           console_error error ;;;
           throw (GenerationFailedError error))
  end.

(** ** Vocabulary of the specification *)

(** [part] is one of the parts of the first candidate of [response]. *)
Definition in_first_candidate (response : GenerateContentResponse)
    (ps : list Part) : Prop :=
  ∃ candidate others ct,
    candidates response = Some (candidate :: others)
    ∧ content candidate = Some ct
    ∧ parts ct = Some ps.

(** A response in which the path to the first candidate's parts breaks
    off: one of the fields on the way is absent. *)
Inductive Truncated (response : GenerateContentResponse) : Prop :=
| no_candidates :
    candidates response = None → Truncated response
| no_first_candidate :
    candidates response = Some [] → Truncated response
| no_content candidate others :
    candidates response = Some (candidate :: others) →
    content candidate = None → Truncated response
| no_parts candidate others ct :
    candidates response = Some (candidate :: others) →
    content candidate = Some ct →
    parts ct = None → Truncated response.

(** A part carries inline image data when its [inlineData] field is set. *)
Definition carries_image (part : Part) : Prop := is_Some (inlineData part).

(** The world after one more outbound call, and after one more
    [console.error]. *)
Definition called (w : World GenerateContentParameters)
    (call : GenerateContentParameters) : World GenerateContentParameters :=
  {| network := network w ++ [call]; console := console w |}.

Definition logged (w : World GenerateContentParameters) (e : Thrown)
  : World GenerateContentParameters :=
  {| network := network w; console := console w ++ [e] |}.

End GeminiService.

(** * Test doubles: mocked hosts, responses and failures *)

Module Mock.
Import JS GeminiService.

(** A host whose service settles every call the same way. *)
Definition host (key : option string)
    (outcome : Settled Thrown GenerateContentResponse) : Host :=
  {| API_KEY := key; generateContent := λ _ _, outcome |}.

Definition image_part (encoded : string) : Part :=
  {| inlineData := Some {| data := Some encoded;
                           mimeType := Some "image/png" |};
     text := None |}.

Definition text_part (words : string) : Part :=
  {| inlineData := None; text := Some words |}.

Definition one_candidate (ps : list Part) : GenerateContentResponse :=
  {| candidates := Some [ {| content := Some {| parts := Some ps |} |} ] |}.

Definition empty_candidates : GenerateContentResponse :=
  {| candidates := Some [] |}.

Definition absent_candidates : GenerateContentResponse :=
  {| candidates := None |}.

Definition http_500 : Thrown :=
  Error "got status: 500 Internal Server Error".

(** A file whose media type carries a parameter with a comma in it. *)
Definition comma_typed_file (bytes : list byte) : File :=
  mkFile "image/png;v=1,2" (Resolved bytes).

End Mock.

(** * The component: [App.tsx] *)

Module App.
Import JS GeminiService.

(** Modelled from the spec: [ImageFile] is declared in [./types], which is
    not among the sources; it is the spec's uploaded image, with the two
    fields [App.tsx] writes and reads: the file handle and its encoded
    string (the media type is read from the file). *)
Record ImageFile : Type := mkImageFile {
  file : File;
  base64 : string
}.

(** The five [useState] cells of the component. *)
Record State : Type := mkState {
  originalImage : option ImageFile;
  prompt : string;
  generatedImage : option string;
  isLoading : bool;
  error : option string
}.


Definition setOriginalImage (v : option ImageFile) (st : State) : State :=
  {| originalImage := v; prompt := prompt st;
     generatedImage := generatedImage st; isLoading := isLoading st;
     error := error st |}.

Definition setPrompt (v : string) (st : State) : State :=
  {| originalImage := originalImage st; prompt := v;
     generatedImage := generatedImage st; isLoading := isLoading st;
     error := error st |}.

Definition setGeneratedImage (v : option string) (st : State) : State :=
  {| originalImage := originalImage st; prompt := prompt st;
     generatedImage := v; isLoading := isLoading st; error := error st |}.

Definition setIsLoading (v : bool) (st : State) : State :=
  {| originalImage := originalImage st; prompt := prompt st;
     generatedImage := generatedImage st; isLoading := v;
     error := error st |}.

Definition setError (v : option string) (st : State) : State :=
  {| originalImage := originalImage st; prompt := prompt st;
     generatedImage := generatedImage st; isLoading := isLoading st;
     error := v |}.

(** A value of type [string | undefined] inside a template literal. *)
Definition interpolate (v : option string) : string :=
  match v with
  | Some s => s
  | None => "undefined"
  end.


(** [handleGenerateClick], run to its end with no other event handled
    meanwhile. [originalImage] and [prompt] are the values the callback
    closed over, those of the state the click happens in. *)
Definition handleGenerateClick (host : Host) (st : State)
    (w : World GenerateContentParameters)
  : State * World GenerateContentParameters :=
  match originalImage st, prompt st with
  | Some image, String _ _ =>
      let st1 := setIsLoading true st in
      let st1 := setError None st1 in
      let st1 := setGeneratedImage None st1 in
      let ty := file_type (file image) in
      let '(outcome, w') :=
        editImageWithPrompt host (base64 image) ty (prompt st) w in
      let st2 :=
        match outcome with
        | Resolved newImageBase64 =>
            setGeneratedImage
              (Some ("data:" +:+ ty +:+ ";base64,"
                     +:+ interpolate newImageBase64)) st1
        | Rejected (Error message) => setError (Some message) st1
        | Rejected (NotAnError _) =>
            setError (Some "An unknown error occurred.") st1
        end in
      (setIsLoading false st2, w')
  | _, _ =>
      (setError (Some "Please upload an image and provide a prompt.") st, w)
  end.

(** [clearImage], as far as the component's state goes (it also empties
    the value of the file input element). *)
Definition clearImage (st : State) : State :=
  let st := setOriginalImage None st in
  let st := setGeneratedImage None st in
  setError None st.

(** The [disabled] attribute of the Generate button. *)
Definition generate_disabled (st : State) : bool :=
  negb (bool_decide (is_Some (originalImage st)))
  || bool_decide (prompt st = EmptyString)
  || isLoading st.

End App.

(** * Sample inputs *)

Module Sample.
Import JS GeminiService.

(** A three-byte PNG upload (the bytes of [Man]) and an unreadable file. *)
Definition png : File :=
  mkFile "image/png" (Resolved [Byte.x4d; Byte.x61; Byte.x6e]).

Definition unreadable : File :=
  mkFile "image/png" (Rejected "NotReadableError").

(** The component once [png] is uploaded and an instruction typed. *)
Definition ready : App.State :=
  {| App.originalImage := Some {| App.file := png; App.base64 := "TWFu" |};
     App.prompt := "add a hat";
     App.generatedImage := None;
     App.isLoading := false;
     App.error := None |}.

End Sample.

Import JS GeminiService.

(** * Properties of the base64 codec *)

Section Base64Facts.
Import Base64.

(** Induction over a byte string in groups of three, the way [encode]
    consumes it. *)
Lemma groups_of_three_ind (P : list byte → Prop) :
  P [] →
  (∀ a, P [a]) →
  (∀ a b, P [a; b]) →
  (∀ a b c rest, P rest → P (a :: b :: c :: rest)) →
  ∀ bs, P bs.
Proof.
  intros H0 H1 H2 H3.
  fix IH 1. intros [|a [|b [|c rest]]].
  - exact H0.
  - apply H1.
  - apply H2.
  - apply H3, IH.
Qed.

Lemma sextet_lt_64_cases (P : N → Prop) :
  (∀ k : nat, (k < 64)%nat → P (N.of_nat k)) → ∀ n, n < 64 → P n.
Proof.
  intros H n Hn. rewrite <- (N2Nat.id n). apply H. lia.
Qed.

Lemma sextet_of_char_of_sextet n :
  n < 64 → sextet_of_char (char_of_sextet n) = Some n.
Proof.
  revert n. apply sextet_lt_64_cases. intros k Hk.
  do 64 (destruct k as [|k]; [vm_compute; reflexivity|]). lia.
Qed.

Lemma char_of_sextet_in_alphabet n :
  char_of_sextet n ∈ "A"%char :: alphabet.
Proof.
  unfold char_of_sextet.
  destruct (nth_in_or_default (N.to_nat n) alphabet "A"%char) as [H| ->].
  - right. by apply list_elem_of_In.
  - left.
Qed.

Lemma char_of_sextet_neq (c : ascii) n :
  c ∉ "A"%char :: alphabet → char_of_sextet n ≠ c.
Proof. intros Hc <-. apply Hc, char_of_sextet_in_alphabet. Qed.

Lemma char_of_sextet_not_pad n : char_of_sextet n ≠ pad.
Proof. apply char_of_sextet_neq. compute_done. Qed.

(** Regrouping octets into sextets loses nothing. *)
Ltac euclid := unfold sextet1, sextet2, sextet3, sextet4,
                 octet1, octet2, octet3;
               zify; Z.to_euclidean_division_equations; lia.

Lemma sextet1_lt a : a ≤ 255 → sextet1 a < 64.
Proof. intros. euclid. Qed.
Lemma sextet2_lt a b : b ≤ 255 → sextet2 a b < 64.
Proof. intros. euclid. Qed.
Lemma sextet3_lt b c : c ≤ 255 → sextet3 b c < 64.
Proof. intros. euclid. Qed.
Lemma sextet4_lt c : sextet4 c < 64.
Proof. euclid. Qed.

Lemma octet1_sextets a b :
  b ≤ 255 → octet1 (sextet1 a) (sextet2 a b) = a.
Proof. intros. euclid. Qed.
Lemma octet2_sextets a b c :
  b ≤ 255 → c ≤ 255 → octet2 (sextet2 a b) (sextet3 b c) = b.
Proof. intros. euclid. Qed.
Lemma octet3_sextets b c :
  c ≤ 255 → octet3 (sextet3 b c) (sextet4 c) = c.
Proof. intros. euclid. Qed.

(** One step of [decode] on a character produced by [encode]. *)
Lemma decode_char n {A} (k : N → option A) :
  n < 64 → sextet_of_char (char_of_sextet n) ≫= k = k n.
Proof. intros Hn. by rewrite sextet_of_char_of_sextet. Qed.

Lemma decode_octet (b : byte) n {A} (k : byte → option A) :
  n = Byte.to_N b → Byte.of_N n ≫= k = k b.
Proof. intros ->. by rewrite Byte.of_to_N. Qed.

(** [decode] inverts [encode] on every byte string. *)
Lemma decode_encode bs : decode (encode bs) = Some bs.
Proof.
  induction bs as [|a|a b|a b c rest IH] using groups_of_three_ind.
  - reflexivity.
  - pose proof (Byte.to_N_bounded a).
    cbn [encode decode].
    rewrite decode_char by (apply sextet1_lt; lia).
    rewrite decode_char by (apply sextet2_lt; lia).
    rewrite (decode_octet a) by (apply octet1_sextets; lia).
    rewrite decide_True by done.
    by rewrite decide_True.
  - pose proof (Byte.to_N_bounded a). pose proof (Byte.to_N_bounded b).
    cbn [encode decode].
    rewrite decode_char by (apply sextet1_lt; lia).
    rewrite decode_char by (apply sextet2_lt; lia).
    rewrite (decode_octet a) by (apply octet1_sextets; lia).
    rewrite decide_False by apply char_of_sextet_not_pad.
    rewrite decode_char by (apply sextet3_lt; lia).
    rewrite (decode_octet b) by (apply octet2_sextets; lia).
    rewrite decide_True by done.
    by rewrite decide_True.
  - pose proof (Byte.to_N_bounded a). pose proof (Byte.to_N_bounded b).
    pose proof (Byte.to_N_bounded c).
    cbn [encode decode].
    rewrite decode_char by (apply sextet1_lt; lia).
    rewrite decode_char by (apply sextet2_lt; lia).
    rewrite (decode_octet a) by (apply octet1_sextets; lia).
    rewrite decide_False by apply char_of_sextet_not_pad.
    rewrite decode_char by (apply sextet3_lt; lia).
    rewrite (decode_octet b) by (apply octet2_sextets; lia).
    rewrite decide_False by apply char_of_sextet_not_pad.
    rewrite decode_char by apply sextet4_lt.
    rewrite (decode_octet c) by (apply octet3_sextets; lia).
    fold decode. by rewrite IH.
Qed.

End Base64Facts.


(** * Properties of [split] and of data URLs *)

Section DataURLFacts.
Import Base64.

Lemma app_String c s t : String c s +:+ t = String c (s +:+ t).
Proof. reflexivity. Qed.

Lemma app_EmptyString t : EmptyString +:+ t = t.
Proof. reflexivity. Qed.

(** A string that does not contain the separator is a single field. *)
Lemma split_without_sep sep s :
  includes s sep = false → split sep s = [s].
Proof.
  induction s as [|c s IH]; cbn [split includes]; [done|].
  case_decide; [done|]. intros Hs. by rewrite IH.
Qed.

(** A separator-free prefix is glued to the first field of what follows. *)
Lemma split_app_l sep pre s field fields :
  includes pre sep = false →
  split sep s = field :: fields →
  split sep (pre +:+ s) = (pre +:+ field) :: fields.
Proof.
  intros Hpre Hs. induction pre as [|c pre IH]; cbn [includes] in Hpre.
  - by rewrite !app_EmptyString.
  - case_decide; [done|].
    rewrite !app_String. cbn [split]. rewrite decide_False by done.
    by rewrite IH.
Qed.

(** The base64 alphabet and the padding character exclude the comma. *)
Lemma encode_without_comma bs : includes (encode bs) ","%char = false.
Proof.
  assert (Hc : ∀ n, char_of_sextet n ≠ ","%char).
  { intros n. apply char_of_sextet_neq. compute_done. }
  induction bs as [|a|a b|a b c rest IH] using groups_of_three_ind;
    cbn [encode includes]; unfold pad;
    repeat (rewrite decide_False by first [apply Hc | done]); done.
Qed.

(** Splitting the data URL of a file whose media type has no comma:
    the header is field 0 and the payload is field 1. *)
Lemma split_data_url media payload :
  includes media ","%char = false →
  includes payload ","%char = false →
  split ","%char ("data:" +:+ media +:+ ";base64," +:+ payload) =
    ["data:" +:+ media +:+ ";base64"; payload].
Proof.
  intros Hmedia Hpayload.
  assert (Htail : split ","%char (";base64," +:+ payload) = [";base64"; payload]).
  { rewrite !app_String, app_EmptyString. cbn [split].
    repeat (rewrite decide_False by done).
    rewrite decide_True by done.
    by rewrite (split_without_sep _ payload). }
  apply split_app_l; [done|].
  by apply split_app_l.
Qed.

End DataURLFacts.

(** * [fileToBase64] *)

Example encode_Man :
  Base64.encode [Byte.x4d; Byte.x61; Byte.x6e] = "TWFu".
Proof. reflexivity. Qed.

Example decode_TQ :
  Base64.decode "TQ==" = Some [Byte.x4d].
Proof. vm_compute. reflexivity. Qed.

Example fileToBase64_png_Man :
  fileToBase64 (mkFile "image/png" (Resolved [Byte.x4d; Byte.x61; Byte.x6e]))
  = Resolved (Some "TWFu").
Proof. vm_compute. reflexivity. Qed.


(** For a file whose media type holds no comma, [fileToBase64] resolves to
    the base64 text of the file's bytes, without the data-URL header. *)
Lemma fileToBase64_comma_free ty bs :
  includes ty ","%char = false →
  fileToBase64 (mkFile ty (Resolved bs)) = Resolved (Some (Base64.encode bs)).
Proof.
  intros Hty. unfold fileToBase64, readAsDataURL. cbn [file_read file_type].
  rewrite split_data_url.
  - reflexivity.
  - by destruct ty.
  - apply encode_without_comma.
Qed.

(** On such files, encoding round-trips. *)
Lemma fileToBase64_comma_free_roundtrip ty bs :
  includes ty ","%char = false →
  ∃ s, fileToBase64 (mkFile ty (Resolved bs)) = Resolved (Some s)
       ∧ Base64.decode s = Some bs.
Proof.
  intros Hty. exists (Base64.encode bs). split.
  - by apply fileToBase64_comma_free.
  - apply decode_encode.
Qed.

(** For a file whose media type holds no comma, an empty content gives the
    empty string. *)
Lemma fileToBase64_comma_free_empty ty :
  includes ty ","%char = false →
  fileToBase64 (mkFile ty (Resolved [])) = Resolved (Some EmptyString).
Proof. intros Hty. by rewrite fileToBase64_comma_free. Qed.

(** * [editImageWithPrompt] *)

Section EditImageWithPrompt.
Variable host : Host.
Variables base64ImageData mimeType prompt : string.

Local Abbreviation World := (World GenerateContentParameters).
Local Abbreviation the_request := (request base64ImageData mimeType prompt).
Local Abbreviation run :=
  (editImageWithPrompt host base64ImageData mimeType prompt).

(** Without a truthy [API_KEY] the function throws before the [try]. *)
Lemma run_without_key (w : World) :
  truthy (API_KEY host) = None →
  run w = (Rejected MissingCredentialError, w).
Proof. intros Hkey. unfold editImageWithPrompt. by rewrite Hkey. Qed.

(** With a key, the function is its [try]/[catch] around one call. *)
Lemma run_with_key (w : World) apiKey :
  truthy (API_KEY host) = Some apiKey →
  run w =
    match generateContent host apiKey the_request with
    | Resolved response =>
        match scan_parts (response_parts response) with
        | Some found => (Resolved found, called w the_request)
        | None =>
            (Rejected (GenerationFailedError NoImageInResponseError),
             logged (called w the_request) NoImageInResponseError)
        end
    | Rejected cause =>
        (Rejected (GenerationFailedError cause),
         logged (called w the_request) cause)
    end.
Proof.
  intros Hkey. unfold editImageWithPrompt. rewrite Hkey.
  unfold try_catch, bind, await_call, console_error, throw, ret.
  destruct (generateContent host apiKey the_request) as [response|cause];
    [|done].
  by destruct (scan_parts (response_parts response)).
Qed.

End EditImageWithPrompt.

(** ** The scan of the response *)

Lemma scan_parts_none ps :
  Forall (λ part, ¬ carries_image part) ps → scan_parts ps = None.
Proof.
  induction 1 as [|part ps Hpart _ IH]; [done|].
  cbn [scan_parts]. destruct (inlineData part) as [blob|] eqn:Hblob; [|done].
  destruct Hpart. unfold carries_image. by rewrite Hblob.
Qed.

Lemma scan_parts_first before part blob after :
  Forall (λ q, ¬ carries_image q) before →
  inlineData part = Some blob →
  scan_parts (before ++ part :: after) = Some (data blob).
Proof.
  intros Hbefore Hpart.
  induction Hbefore as [|q before Hq _ IH]; cbn [app scan_parts].
  - by rewrite Hpart.
  - destruct (inlineData q) as [b|] eqn:Hb; [|done].
    destruct Hq. unfold carries_image. by rewrite Hb.
Qed.

Lemma response_parts_first_candidate response ps :
  in_first_candidate response ps → response_parts response = ps.
Proof.
  intros (candidate & others & ct & Hcs & Hct & Hps).
  unfold response_parts. rewrite Hcs. cbn. rewrite Hct. cbn. by rewrite Hps.
Qed.

Lemma response_parts_truncated response :
  Truncated response → response_parts response = [].
Proof.
  unfold response_parts.
  intros [Hcs|Hcs|candidate others Hcs Hct|candidate others ct Hcs Hct Hps];
    rewrite Hcs; cbn; [done|done|by rewrite Hct|].
  rewrite Hct. cbn. by rewrite Hps.
Qed.

(** Every response either breaks off on the way to the first candidate's
    parts or has such a list of parts. *)
Lemma response_shape response :
  Truncated response ∨ ∃ ps, in_first_candidate response ps.
Proof.
  destruct (candidates response) as [[|candidate others]|] eqn:Hcs.
  - left. by apply no_first_candidate.
  - destruct (content candidate) as [ct|] eqn:Hct.
    + destruct (parts ct) as [ps|] eqn:Hps.
      * right. exists ps, candidate, others, ct. done.
      * left. by eapply no_parts.
    + left. by eapply no_content.
  - left. by apply no_candidates.
Qed.

Lemma contains_suffix pre t : contains (pre +:+ t) t.
Proof.
  exists pre, EmptyString. f_equal.
  induction t as [|c t IH]; [done|]. by rewrite app_String, <- IH.
Qed.

(** With a key, whatever the service answers, the call is appended to the
    network log and nothing else is. *)
Lemma network_after_run host b m p (w : World GenerateContentParameters) apiKey :
  truthy (API_KEY host) = Some apiKey →
  network (snd (editImageWithPrompt host b m p w))
  = network w ++ [request b m p].
Proof.
  intros Hkey. rewrite (run_with_key _ _ _ _ _ _ Hkey).
  destruct (generateContent host apiKey (request b m p)) as [response|cause];
    [|done].
  by destruct (scan_parts (response_parts response)).
Qed.

(** * The claims *)

(** C1: for every binary file, [fileToBase64] should return base64 text
    that decodes to the file's bytes, free of the data-URL header. On a
    file whose media type contains a comma the second comma-separated field
    of the data URL is a piece of the header: for the one-byte file [4d] of
    type [image/png;v=1,2] the function resolves to [2;base64], which is
    not base64 text and does not decode, where the bytes encode to [TQ==]. *)
Theorem fileToBase64_comma_typed_file :
  readAsDataURL (Mock.comma_typed_file [Byte.x4d])
  = onload "data:image/png;v=1,2;base64,TQ=="
  ∧ fileToBase64 (Mock.comma_typed_file [Byte.x4d])
    = Resolved (Some "2;base64")
  ∧ Base64.decode "2;base64" = None
  ∧ Base64.encode [Byte.x4d] = "TQ=="
  ∧ Base64.decode "TQ==" = Some [Byte.x4d].
Proof. repeat split; vm_compute; reflexivity. Qed.

(** C2: with no credential in the environment, [editImageWithPrompt]
    rejects with [MissingCredentialError] and leaves the world as it found
    it: no network call, no log entry. *)
Theorem missing_credential_rejects_before_any_call
    host b m p (w : World GenerateContentParameters) :
  API_KEY host = None →
  editImageWithPrompt host b m p w = (Rejected MissingCredentialError, w).
Proof. intros Hkey. apply run_without_key. by rewrite Hkey. Qed.

Lemma missing_credential_rejects_before_any_call_witness :
  editImageWithPrompt
    (Mock.host None (Resolved (Mock.one_candidate [Mock.image_part "ABC123"])))
    "TQ==" "image/png" "add a hat" start
  = (Rejected (Error "API_KEY environment variable is not set."), start).
Proof.
  apply (missing_credential_rejects_before_any_call
           (Mock.host None
              (Resolved (Mock.one_candidate [Mock.image_part "ABC123"])))).
  reflexivity.
Defined.

(** C3: when the service answers and some part of the first candidate
    carries inline image data, [editImageWithPrompt] resolves to the [data]
    of the first such part, the parts being scanned in order. *)
Theorem first_inline_part_is_returned
    host b m p (w : World GenerateContentParameters)
    apiKey response before part blob after :
  truthy (API_KEY host) = Some apiKey →
  generateContent host apiKey (request b m p) = Resolved response →
  in_first_candidate response (before ++ part :: after) →
  Forall (λ q, ¬ carries_image q) before →
  inlineData part = Some blob →
  editImageWithPrompt host b m p w
  = (Resolved (data blob), called w (request b m p)).
Proof.
  intros Hkey Hcall Hparts Hbefore Hpart.
  rewrite (run_with_key _ _ _ _ _ _ Hkey), Hcall.
  rewrite (response_parts_first_candidate _ _ Hparts).
  by rewrite (scan_parts_first _ _ _ _ Hbefore Hpart).
Qed.

Lemma first_inline_part_is_returned_witness :
  editImageWithPrompt
    (Mock.host (Some "key")
       (Resolved (Mock.one_candidate [Mock.image_part "ABC123"])))
    "TQ==" "image/png" "add a hat" start
  = (Resolved (Some "ABC123"),
     called start (request "TQ==" "image/png" "add a hat")).
Proof.
  apply (first_inline_part_is_returned
           (Mock.host (Some "key")
              (Resolved (Mock.one_candidate [Mock.image_part "ABC123"])))
           "TQ==" "image/png" "add a hat" start "key"
           (Mock.one_candidate [Mock.image_part "ABC123"])
           [] (Mock.image_part "ABC123")
           {| data := Some "ABC123"; mimeType := Some "image/png" |} []).
  - reflexivity.
  - reflexivity.
  - eexists _, _, _. repeat split; reflexivity.
  - constructor.
  - reflexivity.
Defined.

(** C4: when the service answers and no part of the first candidate
    carries inline image data (the candidate list may be empty or absent,
    the parts may all be text), [editImageWithPrompt] returns no value: it
    fails with [NoImageInResponseError]. The transport did not fail, the
    call resolved; the error is the function's own, thrown after the scan.
    It is the value logged at the boundary, and it reaches the caller
    wrapped in [GenerationFailedError], as every error raised inside the
    boundary does: the message received is [Failed to generate image: ]
    followed by the no-image text. *)
Theorem no_image_part_is_rejected
    host b m p (w : World GenerateContentParameters) apiKey response :
  truthy (API_KEY host) = Some apiKey →
  generateContent host apiKey (request b m p) = Resolved response →
  (∀ ps, in_first_candidate response ps →
         Forall (λ q, ¬ carries_image q) ps) →
  editImageWithPrompt host b m p w
  = (Rejected (GenerationFailedError NoImageInResponseError),
     logged (called w (request b m p)) NoImageInResponseError)
  ∧ NoImageInResponseError
    = Error "No image data found in the API response. The model may have refused the request."
  ∧ GenerationFailedError NoImageInResponseError
    = Error "Failed to generate image: No image data found in the API response. The model may have refused the request."
  ∧ contains
      "Failed to generate image: No image data found in the API response. The model may have refused the request."
      "No image data found in the API response. The model may have refused the request.".
Proof.
  intros Hkey Hcall Hnone. split; [|split; [|split]].
  - rewrite (run_with_key _ _ _ _ _ _ Hkey), Hcall.
    destruct (response_shape response) as [Hcut|[ps Hps]].
    + by rewrite (response_parts_truncated _ Hcut).
    + rewrite (response_parts_first_candidate _ _ Hps).
      by rewrite (scan_parts_none _ (Hnone _ Hps)).
  - reflexivity.
  - reflexivity.
  - apply (contains_suffix "Failed to generate image: ").
Qed.

Lemma no_image_part_is_rejected_witness :
  (editImageWithPrompt
     (Mock.host (Some "key")
        (Resolved (Mock.one_candidate [Mock.text_part "I cannot do that."])))
     "TQ==" "image/png" "add a hat" start
   = (Rejected (Error "Failed to generate image: No image data found in the API response. The model may have refused the request."),
      {| network := [request "TQ==" "image/png" "add a hat"];
         console := [Error "No image data found in the API response. The model may have refused the request."] |}))
  ∧ (editImageWithPrompt
       (Mock.host (Some "key") (Resolved Mock.empty_candidates))
       "TQ==" "image/png" "add a hat" start
     = (Rejected (Error "Failed to generate image: No image data found in the API response. The model may have refused the request."),
        {| network := [request "TQ==" "image/png" "add a hat"];
           console := [Error "No image data found in the API response. The model may have refused the request."] |})).
Proof.
  split.
  - apply (no_image_part_is_rejected
             (Mock.host (Some "key")
                (Resolved
                   (Mock.one_candidate [Mock.text_part "I cannot do that."])))
             "TQ==" "image/png" "add a hat" start "key"
             (Mock.one_candidate [Mock.text_part "I cannot do that."])).
    + reflexivity.
    + reflexivity.
    + intros ps (candidate & others & ct & Hcs & Hct & Hps).
      injection Hcs as <- <-. injection Hct as <-. injection Hps as <-.
      constructor; [|constructor].
      intros [blob Hblob]. discriminate Hblob.
  - apply (no_image_part_is_rejected
             (Mock.host (Some "key") (Resolved Mock.empty_candidates))
             "TQ==" "image/png" "add a hat" start "key"
             Mock.empty_candidates).
    + reflexivity.
    + reflexivity.
    + intros ps (candidate & others & ct & Hcs & _). discriminate Hcs.
Defined.

(** C5: when the remote call fails, whatever it throws is caught, logged
    and thrown again as one [Error] whose message is
    [Failed to generate image: ] followed by the diagnostic text of the
    cause: the [message] of a thrown [Error] object, the text of any other
    thrown value. The cause itself is the value logged, after the one
    call. *)
Theorem remote_failure_is_wrapped
    host b m p (w : World GenerateContentParameters) apiKey cause text :
  truthy (API_KEY host) = Some apiKey →
  generateContent host apiKey (request b m p) = Rejected cause →
  cause = Error text ∨ cause = NotAnError text →
  editImageWithPrompt host b m p w
  = (Rejected (Error ("Failed to generate image: " +:+ text)),
     {| network := network w ++ [request b m p];
        console := console w ++ [cause] |})
  ∧ contains ("Failed to generate image: " +:+ text) text.
Proof.
  intros Hkey Hcall Hcause. split.
  - rewrite (run_with_key _ _ _ _ _ _ Hkey), Hcall.
    by destruct Hcause as [-> | ->].
  - apply contains_suffix.
Qed.

Lemma remote_failure_is_wrapped_witness :
  (editImageWithPrompt (Mock.host (Some "key") (Rejected Mock.http_500))
     "TQ==" "image/png" "add a hat" start
   = (Rejected
        (Error "Failed to generate image: got status: 500 Internal Server Error"),
      {| network := [request "TQ==" "image/png" "add a hat"];
         console := [Error "got status: 500 Internal Server Error"] |})
   ∧ contains
       "Failed to generate image: got status: 500 Internal Server Error"
       "got status: 500 Internal Server Error")
  ∧ (editImageWithPrompt
       (Mock.host (Some "key") (Rejected (NotAnError "connection reset")))
       "TQ==" "image/png" "add a hat" start
     = (Rejected (Error "Failed to generate image: connection reset"),
        {| network := [request "TQ==" "image/png" "add a hat"];
           console := [NotAnError "connection reset"] |})
     ∧ contains "Failed to generate image: connection reset"
         "connection reset").
Proof.
  split.
  - apply (remote_failure_is_wrapped
             (Mock.host (Some "key") (Rejected Mock.http_500))
             "TQ==" "image/png" "add a hat" start "key" Mock.http_500
             "got status: 500 Internal Server Error").
    + reflexivity.
    + reflexivity.
    + left. reflexivity.
  - apply (remote_failure_is_wrapped
             (Mock.host (Some "key") (Rejected (NotAnError "connection reset")))
             "TQ==" "image/png" "add a hat" start "key"
             (NotAnError "connection reset") "connection reset").
    + reflexivity.
    + reflexivity.
    + right. reflexivity.
Defined.

(** C6: on an empty file [fileToBase64] should resolve to the empty
    string. On the empty file of type [image/png;v=1,2] it resolves to
    [2;base64], a piece of the data-URL header. *)
Theorem fileToBase64_comma_typed_empty_file :
  readAsDataURL (Mock.comma_typed_file [])
  = onload "data:image/png;v=1,2;base64,"
  ∧ fileToBase64 (Mock.comma_typed_file []) = Resolved (Some "2;base64")
  ∧ fileToBase64 (Mock.comma_typed_file []) ≠ Resolved (Some EmptyString).
Proof.
  repeat split; try (vm_compute; reflexivity).
  vm_compute. intros H. discriminate H.
Qed.

(** C7: the request [editImageWithPrompt] sends has exactly two parts, in
    this order: the inline image data with its media type, then the
    instruction text; and it asks for the image modality alone. *)
Theorem request_is_image_then_text
    host b m p (w : World GenerateContentParameters) apiKey :
  truthy (API_KEY host) = Some apiKey →
  ∃ call,
    network (snd (editImageWithPrompt host b m p w)) = network w ++ [call]
    ∧ parts (contents call)
      = Some [ {| inlineData := Some {| data := Some b; mimeType := Some m |};
                  text := None |};
               {| inlineData := None; text := Some p |} ]
    ∧ responseModalities (config call) = [IMAGE].
Proof.
  intros Hkey. exists (request b m p). split; [|done].
  by apply network_after_run with apiKey.
Qed.

Lemma request_is_image_then_text_witness :
  ∃ call,
    network (snd (editImageWithPrompt
                    (Mock.host (Some "key") (Rejected Mock.http_500))
                    "TQ==" "image/png" "add a hat" start))
    = [call]
    ∧ parts (contents call)
      = Some [ {| inlineData := Some {| data := Some "TQ==";
                                        mimeType := Some "image/png" |};
                  text := None |};
               {| inlineData := None; text := Some "add a hat" |} ]
    ∧ responseModalities (config call) = [IMAGE].
Proof.
  apply (request_is_image_then_text
           (Mock.host (Some "key") (Rejected Mock.http_500))
           "TQ==" "image/png" "add a hat" start "key").
  reflexivity.
Defined.

(** C8: an invocation that passes the credential check adds exactly one
    call to the network log, whether the service answers with an image,
    without one, or fails; a later invocation starts from the log as it
    is and adds one call again. *)
Theorem exactly_one_call
    host b m p (w : World GenerateContentParameters) apiKey :
  truthy (API_KEY host) = Some apiKey →
  length (network (snd (editImageWithPrompt host b m p w)))
  = S (length (network w)).
Proof.
  intros Hkey. rewrite (network_after_run _ _ _ _ _ _ Hkey).
  rewrite length_app. cbn. lia.
Qed.

Lemma exactly_one_call_witness :
  length (network (snd (editImageWithPrompt
                          (Mock.host (Some "key") (Rejected Mock.http_500))
                          "TQ==" "image/png" "add a hat" start)))
  = 1%nat.
Proof.
  apply (exactly_one_call
           (Mock.host (Some "key") (Rejected Mock.http_500))
           "TQ==" "image/png" "add a hat" start "key").
  reflexivity.
Defined.

(** C9: when [candidates], the first candidate, its [content] or its
    [parts] is absent, the optional chain yields the empty list, the loop
    body never runs, and the function fails exactly as for a response
    without image: the caught error is [NoImageInResponseError]. *)
Theorem truncated_response_takes_no_image_branch
    host b m p (w : World GenerateContentParameters) apiKey response :
  truthy (API_KEY host) = Some apiKey →
  generateContent host apiKey (request b m p) = Resolved response →
  Truncated response →
  response_parts response = []
  ∧ editImageWithPrompt host b m p w
    = (Rejected (GenerationFailedError NoImageInResponseError),
       logged (called w (request b m p)) NoImageInResponseError).
Proof.
  intros Hkey Hcall Hcut.
  pose proof (response_parts_truncated _ Hcut) as Hparts.
  split; [done|].
  by rewrite (run_with_key _ _ _ _ _ _ Hkey), Hcall, Hparts.
Qed.

Lemma truncated_response_takes_no_image_branch_witness :
  response_parts Mock.absent_candidates = []
  ∧ editImageWithPrompt
      (Mock.host (Some "key") (Resolved Mock.absent_candidates))
      "TQ==" "image/png" "add a hat" start
    = (Rejected (GenerationFailedError NoImageInResponseError),
       logged (called start (request "TQ==" "image/png" "add a hat"))
         NoImageInResponseError).
Proof.
  apply (truncated_response_takes_no_image_branch
           (Mock.host (Some "key") (Resolved Mock.absent_candidates))
           "TQ==" "image/png" "add a hat" start "key"
           Mock.absent_candidates).
  - reflexivity.
  - reflexivity.
  - apply no_candidates. reflexivity.
Defined.

(** C10: an [API_KEY] set to the empty string is falsy: the function
    behaves as with no [API_KEY] at all, rejecting with
    [MissingCredentialError] and leaving the world untouched. *)
Theorem empty_credential_is_missing_credential
    service b m p (w : World GenerateContentParameters) :
  editImageWithPrompt
    {| API_KEY := Some EmptyString; generateContent := service |} b m p w
  = editImageWithPrompt
      {| API_KEY := None; generateContent := service |} b m p w
  ∧ editImageWithPrompt
      {| API_KEY := Some EmptyString; generateContent := service |} b m p w
    = (Rejected MissingCredentialError, w).
Proof. split; reflexivity. Qed.

(** * Further properties of the service *)

(** ** [fileToBase64] on arbitrary media types *)

Lemma app_assoc_string (s t u : string) : (s +:+ t) +:+ u = s +:+ t +:+ u.
Proof.
  induction s as [|c s IH]; [done|]. by rewrite !app_String, IH.
Qed.

Lemma split_cons sep s : ∃ field fields, split sep s = field :: fields.
Proof.
  induction s as [|c s (field & fields & IH)]; cbn [split]; [by eauto|].
  case_decide; [by eauto|]. rewrite IH. by eauto.
Qed.

(** Fields do not straddle a separator. *)
Lemma split_app_sep sep s t :
  split sep (s +:+ String sep t) = split sep s ++ split sep t.
Proof.
  induction s as [|c s IH].
  - rewrite app_EmptyString. cbn [split]. by rewrite decide_True.
  - rewrite app_String. cbn [split]. case_decide.
    + by rewrite IH.
    + rewrite IH. by destruct (split_cons sep s) as (field & fields & ->).
Qed.

(** A string with a separator in it has at least two fields. *)
Lemma split_two_fields sep s :
  includes s sep = true →
  ∃ f0 f1 fields, split sep s = f0 :: f1 :: fields.
Proof.
  induction s as [|c s IH]; cbn [includes split]; [done|].
  case_decide.
  - intros _. destruct (split_cons sep s) as (field & fields & ->). by eauto.
  - intros (f0 & f1 & fields & ->)%IH. by eauto.
Qed.

Lemma includes_app s t c :
  includes (s +:+ t) c = includes s c || includes t c.
Proof.
  induction s as [|c' s IH]; [done|].
  rewrite app_String. cbn [includes]. by case_decide.
Qed.

(** The data URL of a readable file, cut at the comma that ends its
    header. *)
Lemma data_url_header media payload :
  "data:" +:+ media +:+ ";base64," +:+ payload
  = ("data:" +:+ media +:+ ";base64") +:+ String ","%char payload.
Proof. by rewrite !app_assoc_string. Qed.

(** A readable file always gives a second field. *)
Lemma fileToBase64_readable ty bs :
  ∃ s, fileToBase64 (mkFile ty (Resolved bs)) = Resolved (Some s).
Proof.
  unfold fileToBase64, readAsDataURL. cbn [file_read file_type].
  rewrite data_url_header, split_app_sep.
  destruct (split_cons ","%char (Base64.encode bs)) as (g & gs & ->).
  match goal with
  | |- context [split ?sep ?hdr ++ _] =>
      destruct (split_cons sep hdr) as (f & [|f1 fs] & ->)
  end; by eauto.
Qed.

(** X1: [fileToBase64] settles as the read does. When the read fails it
    rejects with the reader's error; when the file is readable it
    resolves to a string, never to [undefined], whatever the media type
    and the bytes. *)
Theorem fileToBase64_settles_as_the_read file :
  match file_read file with
  | Rejected error => fileToBase64 file = Rejected error
  | Resolved _ => ∃ s, fileToBase64 file = Resolved (Some s)
  end.
Proof.
  destruct file as [ty [bs|error]]; cbn [file_read]; [|done].
  apply fileToBase64_readable.
Qed.

(** X3: when the media type of a readable file contains a comma, what
    [fileToBase64] resolves to is a field of the data-URL header: it is
    the same string for every content of the file. *)
Theorem fileToBase64_comma_type_ignores_content ty :
  includes ty ","%char = true →
  ∃ piece, ∀ bs, fileToBase64 (mkFile ty (Resolved bs)) = Resolved (Some piece).
Proof.
  intros Hty. destruct ty as [|c ty]; [done|].
  assert (Hhdr : includes ("data:" +:+ String c ty +:+ ";base64") ","%char
                 = true).
  { by rewrite !includes_app, Hty, orb_true_r. }
  destruct (split_two_fields _ _ Hhdr) as (f0 & f1 & fields & Hsplit).
  exists f1. intros bs.
  unfold fileToBase64, readAsDataURL. cbn [file_read file_type].
  by rewrite data_url_header, split_app_sep, Hsplit.
Qed.

Lemma fileToBase64_comma_type_ignores_content_witness :
  ∃ piece, ∀ bs,
    fileToBase64 (Mock.comma_typed_file bs) = Resolved (Some piece).
Proof.
  apply (fileToBase64_comma_type_ignores_content "image/png;v=1,2").
  reflexivity.
Defined.

(** X2: for a readable file whose media type holds no comma,
    [fileToBase64] resolves to the base64 text of the file's bytes, header
    removed, and that text decodes to the bytes. *)
Theorem fileToBase64_decodes_to_the_bytes ty bs :
  includes ty ","%char = false →
  fileToBase64 (mkFile ty (Resolved bs)) = Resolved (Some (Base64.encode bs))
  ∧ Base64.decode (Base64.encode bs) = Some bs.
Proof.
  intros Hty. split; [by apply fileToBase64_comma_free|apply decode_encode].
Qed.

Lemma fileToBase64_decodes_to_the_bytes_witness :
  fileToBase64 Sample.png = Resolved (Some "TWFu")
  ∧ Base64.decode "TWFu" = Some [Byte.x4d; Byte.x61; Byte.x6e].
Proof.
  apply (fileToBase64_decodes_to_the_bytes
           "image/png" [Byte.x4d; Byte.x61; Byte.x6e]).
  reflexivity.
Defined.

(** ** Every way [editImageWithPrompt] can settle *)

Lemma scan_parts_Some ps found :
  scan_parts ps = Some found →
  ∃ before part blob after,
    ps = before ++ part :: after
    ∧ Forall (λ q, ¬ carries_image q) before
    ∧ inlineData part = Some blob
    ∧ data blob = found.
Proof.
  induction ps as [|q ps IH]; cbn [scan_parts]; [done|].
  destruct (inlineData q) as [blob|] eqn:Hq.
  - intros [= <-]. exists [], q, blob, ps. by repeat split.
  - intros (before & part & blob & after & -> & Hbefore & Hpart & Hdata)%IH.
    exists (q :: before), part, blob, after. repeat split; try done.
    constructor; [|done]. unfold carries_image. rewrite Hq. by intros [? ?].
Qed.

Lemma response_parts_nonempty response ps :
  response_parts response = ps → ps ≠ [] → in_first_candidate response ps.
Proof.
  intros Hps Hne. destruct (response_shape response) as [Hcut|[ps' Hin]].
  - apply response_parts_truncated in Hcut. congruence.
  - by rewrite <- Hps, (response_parts_first_candidate _ _ Hin).
Qed.

(** X4: [editImageWithPrompt] resolves only on an image. If it resolves to
    [found], then a credential was configured, the service answered, and
    [found] is the [data] of the first part of the first candidate that
    has [inlineData]; one call went out and nothing was logged. *)
Theorem resolved_only_on_inline_data
    host b m p (w : World GenerateContentParameters) found :
  fst (editImageWithPrompt host b m p w) = Resolved found →
  ∃ apiKey response before part blob after,
    truthy (API_KEY host) = Some apiKey
    ∧ generateContent host apiKey (request b m p) = Resolved response
    ∧ in_first_candidate response (before ++ part :: after)
    ∧ Forall (λ q, ¬ carries_image q) before
    ∧ inlineData part = Some blob
    ∧ data blob = found
    ∧ snd (editImageWithPrompt host b m p w) = called w (request b m p).
Proof.
  destruct (truthy (API_KEY host)) as [apiKey|] eqn:Hkey.
  - rewrite (run_with_key _ _ _ _ _ _ Hkey).
    destruct (generateContent host apiKey (request b m p))
      as [response|cause] eqn:Hcall; [|done].
    destruct (scan_parts (response_parts response)) as [v|] eqn:Hscan; [|done].
    intros [= <-].
    destruct (scan_parts_Some _ _ Hscan)
      as (before & part & blob & after & Hps & Hbefore & Hpart & Hdata).
    exists apiKey, response, before, part, blob, after.
    repeat split; try done.
    apply response_parts_nonempty; [done|]. by destruct before.
  - by rewrite (run_without_key _ _ _ _ _ Hkey).
Qed.

Lemma resolved_only_on_inline_data_witness :
  ∃ apiKey response before part blob after,
    truthy (Some "key") = Some apiKey
    ∧ generateContent
        (Mock.host (Some "key")
           (Resolved
              (Mock.one_candidate
                 [Mock.text_part "Here it is."; Mock.image_part "ABC123"])))
        apiKey (request "TQ==" "image/png" "add a hat")
      = Resolved response
    ∧ in_first_candidate response (before ++ part :: after)
    ∧ Forall (λ q, ¬ carries_image q) before
    ∧ inlineData part = Some blob
    ∧ data blob = Some "ABC123"
    ∧ snd (editImageWithPrompt
             (Mock.host (Some "key")
                (Resolved
                   (Mock.one_candidate
                      [Mock.text_part "Here it is."; Mock.image_part "ABC123"])))
             "TQ==" "image/png" "add a hat" start)
      = called start (request "TQ==" "image/png" "add a hat").
Proof.
  apply (resolved_only_on_inline_data
           (Mock.host (Some "key")
              (Resolved
                 (Mock.one_candidate
                    [Mock.text_part "Here it is."; Mock.image_part "ABC123"])))
           "TQ==" "image/png" "add a hat" start (Some "ABC123")).
  reflexivity.
Defined.



(** * The component *)

(** A click with an image and an instruction present: the handler is
    [editImageWithPrompt] between the three resets and the [finally]. *)
Lemma handleGenerateClick_run host st (w : World GenerateContentParameters)
    image :
  App.originalImage st = Some image →
  App.prompt st ≠ EmptyString →
  App.handleGenerateClick host st w
  = (App.setIsLoading false
       (match fst (editImageWithPrompt host (App.base64 image)
                     (file_type (App.file image)) (App.prompt st) w) with
        | Resolved newImageBase64 =>
            App.setGeneratedImage
              (Some ("data:" +:+ file_type (App.file image) +:+ ";base64,"
                     +:+ App.interpolate newImageBase64))
        | Rejected (Error message) => App.setError (Some message)
        | Rejected (NotAnError _) =>
            App.setError (Some "An unknown error occurred.")
        end
          (App.setGeneratedImage None
             (App.setError None (App.setIsLoading true st)))),
     snd (editImageWithPrompt host (App.base64 image)
            (file_type (App.file image)) (App.prompt st) w)).
Proof.
  intros Himage Hprompt. unfold App.handleGenerateClick. rewrite Himage.
  destruct (App.prompt st) as [|c rest] eqn:Hp; [done|].
  destruct (editImageWithPrompt host (App.base64 image)
              (file_type (App.file image)) (String c rest) w)
    as [[found|[message|other]] w']; reflexivity.
Qed.

(** What [editImageWithPrompt] throws is one of its own two errors. *)
Lemma rejection_cases host b m p (w : World GenerateContentParameters)
    thrown :
  fst (editImageWithPrompt host b m p w) = Rejected thrown →
  thrown = MissingCredentialError
  ∨ ∃ cause, thrown = GenerationFailedError cause.
Proof.
  destruct (truthy (API_KEY host)) as [apiKey|] eqn:Hkey.
  - rewrite (run_with_key _ _ _ _ _ _ Hkey).
    destruct (generateContent host apiKey (request b m p))
      as [response|cause].
    + destruct (scan_parts (response_parts response)); [done|].
      intros [= <-]. right. by eexists.
    + intros [= <-]. right. by eexists.
  - rewrite (run_without_key _ _ _ _ _ Hkey). intros [= <-]. by left.
Qed.

(** The guard of [handleGenerateClick]. *)
Lemma handleGenerateClick_guard host st (w : World GenerateContentParameters) :
  App.originalImage st = None ∨ App.prompt st = EmptyString →
  App.handleGenerateClick host st w
  = (App.setError (Some "Please upload an image and provide a prompt.") st,
     w).
Proof.
  unfold App.handleGenerateClick. intros [-> | ->]; [done|].
  by destruct (App.originalImage st).
Qed.

(** X6: a click on Generate with no image uploaded or with an empty
    instruction only sets the error message: no request goes out, and the
    image, the instruction, the previous result and the busy flag stay as
    they were. *)
Theorem generate_needs_image_and_prompt
    host st (w : World GenerateContentParameters) :
  App.originalImage st = None ∨ App.prompt st = EmptyString →
  App.handleGenerateClick host st w
  = (App.setError (Some "Please upload an image and provide a prompt.") st,
     w).
Proof. apply handleGenerateClick_guard. Qed.

Lemma generate_needs_image_and_prompt_witness :
  App.handleGenerateClick
    (Mock.host (Some "key")
       (Resolved (Mock.one_candidate [Mock.image_part "ABC123"])))
    (App.setPrompt EmptyString Sample.ready) start
  = (App.setError (Some "Please upload an image and provide a prompt.")
       (App.setPrompt EmptyString Sample.ready),
     start).
Proof.
  apply (generate_needs_image_and_prompt
           (Mock.host (Some "key")
              (Resolved (Mock.one_candidate [Mock.image_part "ABC123"])))
           (App.setPrompt EmptyString Sample.ready) start).
  right. reflexivity.
Defined.



(** X8: the fallback message [An unknown error occurred.] is never shown
    by [handleGenerateClick]: everything [editImageWithPrompt] throws is an
    [Error] object, so the handler always shows that error's own message. *)
Theorem generate_never_shows_unknown_error
    host st (w : World GenerateContentParameters) :
  App.error (fst (App.handleGenerateClick host st w))
  ≠ Some "An unknown error occurred.".
Proof.
  destruct (App.originalImage st) as [image|] eqn:Himage.
  - destruct (decide (App.prompt st = EmptyString)) as [Hp|Hp].
    + rewrite handleGenerateClick_guard by (by right). done.
    + rewrite (handleGenerateClick_run _ _ _ _ Himage Hp). cbn [fst].
      destruct (fst (editImageWithPrompt _ _ _ _ _)) as [found|thrown] eqn:Hrun;
        [done|].
      destruct (rejection_cases _ _ _ _ _ _ Hrun) as [-> | [cause ->]];
        [done|].
      unfold GenerationFailedError. rewrite app_String. cbn. congruence.
  - rewrite handleGenerateClick_guard by (by left). done.
Qed.

(** X9: when the service answers with inline image data, the result shown
    is a data URL made of the media type of the uploaded file (not the one
    of the returned blob) and the [data] of the first part that has
    [inlineData]; any earlier error is cleared and one request went out. *)
Theorem generate_shows_first_inline_image
    host st (w : World GenerateContentParameters)
    image apiKey response before part blob after :
  App.originalImage st = Some image →
  App.prompt st ≠ EmptyString →
  truthy (API_KEY host) = Some apiKey →
  generateContent host apiKey
    (request (App.base64 image) (file_type (App.file image)) (App.prompt st))
  = Resolved response →
  in_first_candidate response (before ++ part :: after) →
  Forall (λ q, ¬ carries_image q) before →
  inlineData part = Some blob →
  App.handleGenerateClick host st w
  = ({| App.originalImage := Some image;
        App.prompt := App.prompt st;
        App.generatedImage :=
          Some ("data:" +:+ file_type (App.file image) +:+ ";base64,"
                +:+ App.interpolate (data blob));
        App.isLoading := false;
        App.error := None |},
     called w (request (App.base64 image) (file_type (App.file image))
                 (App.prompt st))).
Proof.
  intros Himage Hprompt Hkey Hcall Hparts Hbefore Hpart.
  rewrite (handleGenerateClick_run _ _ _ _ Himage Hprompt).
  rewrite (run_with_key _ _ _ _ _ _ Hkey), Hcall.
  rewrite (response_parts_first_candidate _ _ Hparts).
  rewrite (scan_parts_first _ _ _ _ Hbefore Hpart). cbn.
  unfold App.setIsLoading, App.setGeneratedImage, App.setError. cbn.
  by rewrite Himage.
Qed.

Lemma generate_shows_first_inline_image_witness :
  App.handleGenerateClick
    (Mock.host (Some "key")
       (Resolved
          (Mock.one_candidate
             [Mock.text_part "Here it is."; Mock.image_part "ABC123"])))
    (App.setError (Some "Failed to generate image: timeout") Sample.ready)
    start
  = ({| App.originalImage :=
          Some {| App.file := Sample.png; App.base64 := "TWFu" |};
        App.prompt := "add a hat";
        App.generatedImage := Some "data:image/png;base64,ABC123";
        App.isLoading := false;
        App.error := None |},
     called start (request "TWFu" "image/png" "add a hat")).
Proof.
  apply (generate_shows_first_inline_image
           (Mock.host (Some "key")
              (Resolved
                 (Mock.one_candidate
                    [Mock.text_part "Here it is."; Mock.image_part "ABC123"])))
           (App.setError (Some "Failed to generate image: timeout")
              Sample.ready)
           start
           {| App.file := Sample.png; App.base64 := "TWFu" |} "key"
           (Mock.one_candidate
              [Mock.text_part "Here it is."; Mock.image_part "ABC123"])
           [Mock.text_part "Here it is."] (Mock.image_part "ABC123")
           {| data := Some "ABC123"; mimeType := Some "image/png" |} []).
  - reflexivity.
  - discriminate.
  - reflexivity.
  - reflexivity.
  - eexists _, _, _. repeat split; reflexivity.
  - constructor; [|constructor]. intros [? H]. discriminate H.
  - reflexivity.
Defined.



(** X11: with no credential configured (absent or the empty string), a
    click on Generate shows [API_KEY environment variable is not set.],
    sends nothing and logs nothing. *)
Theorem generate_shows_missing_credential
    host st (w : World GenerateContentParameters) image :
  App.originalImage st = Some image →
  App.prompt st ≠ EmptyString →
  API_KEY host = None ∨ API_KEY host = Some EmptyString →
  App.handleGenerateClick host st w
  = ({| App.originalImage := Some image;
        App.prompt := App.prompt st;
        App.generatedImage := None;
        App.isLoading := false;
        App.error := Some "API_KEY environment variable is not set." |},
     w).
Proof.
  intros Himage Hprompt Hkey.
  rewrite (handleGenerateClick_run _ _ _ _ Himage Hprompt).
  rewrite run_without_key by (by destruct Hkey as [-> | ->]). cbn.
  unfold App.setIsLoading, App.setGeneratedImage, App.setError. cbn.
  by rewrite Himage.
Qed.

Lemma generate_shows_missing_credential_witness :
  App.handleGenerateClick
    (Mock.host (Some EmptyString)
       (Resolved (Mock.one_candidate [Mock.image_part "ABC123"])))
    Sample.ready start
  = ({| App.originalImage :=
          Some {| App.file := Sample.png; App.base64 := "TWFu" |};
        App.prompt := "add a hat";
        App.generatedImage := None;
        App.isLoading := false;
        App.error := Some "API_KEY environment variable is not set." |},
     start).
Proof.
  apply (generate_shows_missing_credential
           (Mock.host (Some EmptyString)
              (Resolved (Mock.one_candidate [Mock.image_part "ABC123"])))
           Sample.ready start
           {| App.file := Sample.png; App.base64 := "TWFu" |}).
  - reflexivity.
  - discriminate.
  - right. reflexivity.
Defined.

(** X12: when the service answers without inline image data in the first
    candidate, the message shown is [Failed to generate image: ] followed
    by the no-image text; no result is shown and the busy flag is down. *)
Theorem generate_shows_refusal
    host st (w : World GenerateContentParameters) image apiKey response :
  App.originalImage st = Some image →
  App.prompt st ≠ EmptyString →
  truthy (API_KEY host) = Some apiKey →
  generateContent host apiKey
    (request (App.base64 image) (file_type (App.file image)) (App.prompt st))
  = Resolved response →
  Forall (λ q, ¬ carries_image q) (response_parts response) →
  App.handleGenerateClick host st w
  = ({| App.originalImage := Some image;
        App.prompt := App.prompt st;
        App.generatedImage := None;
        App.isLoading := false;
        App.error :=
          Some "Failed to generate image: No image data found in the API response. The model may have refused the request." |},
     logged (called w (request (App.base64 image)
                         (file_type (App.file image)) (App.prompt st)))
       NoImageInResponseError).
Proof.
  intros Himage Hprompt Hkey Hcall Hnone.
  rewrite (handleGenerateClick_run _ _ _ _ Himage Hprompt).
  rewrite (run_with_key _ _ _ _ _ _ Hkey), Hcall.
  rewrite (scan_parts_none _ Hnone). cbn.
  unfold App.setIsLoading, App.setGeneratedImage, App.setError. cbn.
  by rewrite Himage.
Qed.

Lemma generate_shows_refusal_witness :
  App.handleGenerateClick
    (Mock.host (Some "key")
       (Resolved (Mock.one_candidate [Mock.text_part "I cannot do that."])))
    Sample.ready start
  = ({| App.originalImage :=
          Some {| App.file := Sample.png; App.base64 := "TWFu" |};
        App.prompt := "add a hat";
        App.generatedImage := None;
        App.isLoading := false;
        App.error :=
          Some "Failed to generate image: No image data found in the API response. The model may have refused the request." |},
     logged (called start (request "TWFu" "image/png" "add a hat"))
       NoImageInResponseError).
Proof.
  apply (generate_shows_refusal
           (Mock.host (Some "key")
              (Resolved
                 (Mock.one_candidate [Mock.text_part "I cannot do that."])))
           Sample.ready start
           {| App.file := Sample.png; App.base64 := "TWFu" |} "key"
           (Mock.one_candidate [Mock.text_part "I cannot do that."])).
  - reflexivity.
  - discriminate.
  - reflexivity.
  - reflexivity.
  - constructor; [|constructor]. intros [? H]. discriminate H.
Defined.




(** X15: while the Generate button is enabled, a click never ends on the
    message [Please upload an image and provide a prompt.]: the guard of
    the handler only fires in states in which the button is disabled. *)
Theorem enabled_generate_passes_the_guard
    host st (w : World GenerateContentParameters) :
  App.generate_disabled st = false →
  App.error (fst (App.handleGenerateClick host st w))
  ≠ Some "Please upload an image and provide a prompt.".
Proof.
  unfold App.generate_disabled.
  intros [[Himage%negb_false_iff Hprompt]%orb_false_iff _]%orb_false_iff.
  apply bool_decide_eq_true in Himage as [image Himage].
  apply bool_decide_eq_false in Hprompt.
  rewrite (handleGenerateClick_run _ _ _ _ Himage Hprompt). cbn [fst].
  destruct (fst (editImageWithPrompt _ _ _ _ _)) as [found|thrown] eqn:Hrun;
    [done|].
  destruct (rejection_cases _ _ _ _ _ _ Hrun) as [-> | [cause ->]]; [done|].
  unfold GenerationFailedError. rewrite app_String. cbn. congruence.
Qed.

Lemma enabled_generate_passes_the_guard_witness :
  App.error (fst (App.handleGenerateClick
                    (Mock.host None (Rejected Mock.http_500))
                    Sample.ready start))
  ≠ Some "Please upload an image and provide a prompt.".
Proof.
  apply (enabled_generate_passes_the_guard
           (Mock.host None (Rejected Mock.http_500)) Sample.ready start).
  reflexivity.
Defined.

(** X16: [clearImage] removes the image, the result and the error and
    keeps the instruction; in the state it leaves, the Generate button is
    disabled and the handler, were it run, would send nothing. *)
Theorem clear_leaves_nothing_to_send
    host st (w : World GenerateContentParameters) :
  App.clearImage st
  = {| App.originalImage := None; App.prompt := App.prompt st;
       App.generatedImage := None; App.isLoading := App.isLoading st;
       App.error := None |}
  ∧ App.generate_disabled (App.clearImage st) = true
  ∧ snd (App.handleGenerateClick host (App.clearImage st) w) = w.
Proof.
  split; [reflexivity|]. split; [reflexivity|].
  by rewrite handleGenerateClick_guard by (by left).
Qed.
